(** * Exact-shape mixins of Nuitka's expression nodes

    A shallow embedding of [nuitka/nodes/ExpressionShapeMixins.py]: the
    mixin classes that answer, for an expression node whose shape is
    exactly one built-in type, the "is the shape exactly X" queries, the
    attribute queries, the bool conversion queries and the hashability
    query.

    The Python classes are embedded as they are written: every class has
    a body that defines some methods, a class without a definition of its
    own inherits the one of its base, and a call on a node resolves the
    method along the classes of the node's class. *)

From Stdlib Require Import List String Ascii Bool PeanoNat.
Import ListNotations.
Open Scope string_scope.

(** ** The host language: built-in types, their instances, attributes *)

(** The built-in types whose names the module mentions.  [ty_unicode] is
    a type of its own only where [str is bytes] (Python 2), [ty_bytes]
    only where it is not (Python 3). *)
Inductive BuiltinType : Type :=
| ty_bool | ty_str | ty_unicode | ty_bytes | ty_bytearray
| ty_list | ty_tuple | ty_dict | ty_set | ty_frozenset.

(** Instances of these types, by their contents: two objects with the
    same contents are the same [PyObject]; which object it is, is kept
    apart, in [PyRef] below. *)
#[local] Set Warnings "-register-all".
Inductive PyObject : Type :=
| PyBool (b : bool)
| PyStr (s : string)
| PyUnicode (s : string)
| PyBytes (s : string)
| PyBytearray (s : string)
| PyList (items : list PyObject)
| PyTuple (items : list PyObject)
| PyDict (items : list (PyObject * PyObject))
| PySet (items : list PyObject)
| PyFrozenset (items : list PyObject).

Definition type_of (o : PyObject) : BuiltinType :=
  match o with
  | PyBool _ => ty_bool
  | PyStr _ => ty_str
  | PyUnicode _ => ty_unicode
  | PyBytes _ => ty_bytes
  | PyBytearray _ => ty_bytearray
  | PyList _ => ty_list
  | PyTuple _ => ty_tuple
  | PyDict _ => ty_dict
  | PySet _ => ty_set
  | PyFrozenset _ => ty_frozenset
  end.

(** What the queries hand back besides plain booleans: [None], a type
    object such as [dict], or the result of an attribute lookup, kept
    symbolic: the attribute of that name of a receiver with these
    contents.  It does not tell which object the receiver is; [RefValue]
    below does. *)
Inductive PyValue : Type :=
| ValNone
| ValType (t : BuiltinType)
| ValMember (self : PyObject) (name : string).

(** The exception types that occur as arguments or are raised. *)
Inductive ExceptionType : Type :=
| BaseException | Exception | AttributeError | TypeError | KeyError.

(** A call either returns or raises. *)
Inductive Outcome (A : Type) : Type :=
| Returns (a : A)
| Raises (e : ExceptionType).
Arguments Returns {A} a.
Arguments Raises {A} e.

Definition bind {A B : Type} (m : Outcome A) (k : A -> Outcome B) : Outcome B :=
  match m with
  | Returns a => k a
  | Raises e => Raises e
  end.

Notation "x <- m ;; k" := (bind m (fun x => k))
  (at level 61, m at next level, right associativity).

(** The runtime the compiler itself executes on.  [str_is_bytes] is the
    test [str is bytes] of the module's last statement; [members] lists,
    for each built-in type, the attribute names an instance of it
    exposes. *)
Record Runtime : Type := {
  str_is_bytes : bool;
  members : BuiltinType -> list string
}.

Definition mem_string (name : string) (l : list string) : bool :=
  existsb (String.eqb name) l.

Section HostLanguage.

Variable rt : Runtime.

(** [hasattr(o, name)] for an instance of a built-in type. *)
Definition hasattr (o : PyObject) (name : string) : bool :=
  mem_string name (members rt (type_of o)).

(** [getattr(o, name)]: the attribute, or AttributeError. *)
Definition getattr (o : PyObject) (name : string) : Outcome PyValue :=
  if hasattr o name then Returns (ValMember o name)
  else Raises AttributeError.

(** The empty plain, [u]-prefixed and [b]-prefixed string literals
    (each applied to [EmptyString] below): which type they belong to
    depends on the runtime. *)
Definition str_literal (s : string) : PyObject := PyStr s.

Definition unicode_literal (s : string) : PyObject :=
  if str_is_bytes rt then PyUnicode s else PyStr s.

Definition bytes_literal (s : string) : PyObject :=
  if str_is_bytes rt then PyStr s else PyBytes s.

(** The type the names [unicode] and [bytes] stand for. *)
Definition unicode_type : BuiltinType :=
  if str_is_bytes rt then ty_unicode else ty_str.

Definition bytes_type : BuiltinType :=
  if str_is_bytes rt then ty_str else ty_bytes.

(** The contents of what a call of a built-in type without arguments
    gives: [dict()], [bool()], [str()], ...  Whether the call gives a
    new object is [new_object]'s matter, below. *)
Definition construct (t : BuiltinType) : PyObject :=
  match t with
  | ty_bool => PyBool false
  | ty_str => PyStr EmptyString
  | ty_unicode => PyUnicode EmptyString
  | ty_bytes => PyBytes EmptyString
  | ty_bytearray => PyBytearray EmptyString
  | ty_list => PyList []
  | ty_tuple => PyTuple []
  | ty_dict => PyDict []
  | ty_set => PySet []
  | ty_frozenset => PyFrozenset []
  end.

End HostLanguage.

(** ** Two concrete runtimes

    The member tables of the built-in types of CPython 3.11 and of
    CPython 2.7, one list per type, as [dir] shows them on the empty
    instance. *)

Definition py3_bool_members : list string :=
  [ "__abs__"; "__add__"; "__and__"; "__bool__"; "__ceil__"; "__class__";
    "__delattr__"; "__dir__"; "__divmod__"; "__doc__"; "__eq__"; "__float__";
    "__floor__"; "__floordiv__"; "__format__"; "__ge__"; "__getattribute__";
    "__getnewargs__"; "__getstate__"; "__gt__"; "__hash__"; "__index__";
    "__init__"; "__init_subclass__"; "__int__"; "__invert__"; "__le__";
    "__lshift__"; "__lt__"; "__mod__"; "__mul__"; "__ne__"; "__neg__";
    "__new__"; "__or__"; "__pos__"; "__pow__"; "__radd__"; "__rand__";
    "__rdivmod__"; "__reduce__"; "__reduce_ex__"; "__repr__"; "__rfloordiv__";
    "__rlshift__"; "__rmod__"; "__rmul__"; "__ror__"; "__round__"; "__rpow__";
    "__rrshift__"; "__rshift__"; "__rsub__"; "__rtruediv__"; "__rxor__";
    "__setattr__"; "__sizeof__"; "__str__"; "__sub__"; "__subclasshook__";
    "__truediv__"; "__trunc__"; "__xor__"; "as_integer_ratio"; "bit_count";
    "bit_length"; "conjugate"; "denominator"; "from_bytes"; "imag";
    "numerator"; "real"; "to_bytes" ].

Definition py3_str_members : list string :=
  [ "__add__"; "__class__"; "__contains__"; "__delattr__"; "__dir__";
    "__doc__"; "__eq__"; "__format__"; "__ge__"; "__getattribute__";
    "__getitem__"; "__getnewargs__"; "__getstate__"; "__gt__"; "__hash__";
    "__init__"; "__init_subclass__"; "__iter__"; "__le__"; "__len__";
    "__lt__"; "__mod__"; "__mul__"; "__ne__"; "__new__"; "__reduce__";
    "__reduce_ex__"; "__repr__"; "__rmod__"; "__rmul__"; "__setattr__";
    "__sizeof__"; "__str__"; "__subclasshook__"; "capitalize"; "casefold";
    "center"; "count"; "encode"; "endswith"; "expandtabs"; "find"; "format";
    "format_map"; "index"; "isalnum"; "isalpha"; "isascii"; "isdecimal";
    "isdigit"; "isidentifier"; "islower"; "isnumeric"; "isprintable";
    "isspace"; "istitle"; "isupper"; "join"; "ljust"; "lower"; "lstrip";
    "maketrans"; "partition"; "removeprefix"; "removesuffix"; "replace";
    "rfind"; "rindex"; "rjust"; "rpartition"; "rsplit"; "rstrip"; "split";
    "splitlines"; "startswith"; "strip"; "swapcase"; "title"; "translate";
    "upper"; "zfill" ].

Definition py3_bytes_members : list string :=
  [ "__add__"; "__bytes__"; "__class__"; "__contains__"; "__delattr__";
    "__dir__"; "__doc__"; "__eq__"; "__format__"; "__ge__";
    "__getattribute__"; "__getitem__"; "__getnewargs__"; "__getstate__";
    "__gt__"; "__hash__"; "__init__"; "__init_subclass__"; "__iter__";
    "__le__"; "__len__"; "__lt__"; "__mod__"; "__mul__"; "__ne__"; "__new__";
    "__reduce__"; "__reduce_ex__"; "__repr__"; "__rmod__"; "__rmul__";
    "__setattr__"; "__sizeof__"; "__str__"; "__subclasshook__"; "capitalize";
    "center"; "count"; "decode"; "endswith"; "expandtabs"; "find"; "fromhex";
    "hex"; "index"; "isalnum"; "isalpha"; "isascii"; "isdigit"; "islower";
    "isspace"; "istitle"; "isupper"; "join"; "ljust"; "lower"; "lstrip";
    "maketrans"; "partition"; "removeprefix"; "removesuffix"; "replace";
    "rfind"; "rindex"; "rjust"; "rpartition"; "rsplit"; "rstrip"; "split";
    "splitlines"; "startswith"; "strip"; "swapcase"; "title"; "translate";
    "upper"; "zfill" ].

Definition py3_bytearray_members : list string :=
  [ "__add__"; "__alloc__"; "__class__"; "__contains__"; "__delattr__";
    "__delitem__"; "__dir__"; "__doc__"; "__eq__"; "__format__"; "__ge__";
    "__getattribute__"; "__getitem__"; "__getstate__"; "__gt__"; "__hash__";
    "__iadd__"; "__imul__"; "__init__"; "__init_subclass__"; "__iter__";
    "__le__"; "__len__"; "__lt__"; "__mod__"; "__mul__"; "__ne__"; "__new__";
    "__reduce__"; "__reduce_ex__"; "__repr__"; "__rmod__"; "__rmul__";
    "__setattr__"; "__setitem__"; "__sizeof__"; "__str__"; "__subclasshook__";
    "append"; "capitalize"; "center"; "clear"; "copy"; "count"; "decode";
    "endswith"; "expandtabs"; "extend"; "find"; "fromhex"; "hex"; "index";
    "insert"; "isalnum"; "isalpha"; "isascii"; "isdigit"; "islower";
    "isspace"; "istitle"; "isupper"; "join"; "ljust"; "lower"; "lstrip";
    "maketrans"; "partition"; "pop"; "remove"; "removeprefix"; "removesuffix";
    "replace"; "reverse"; "rfind"; "rindex"; "rjust"; "rpartition"; "rsplit";
    "rstrip"; "split"; "splitlines"; "startswith"; "strip"; "swapcase";
    "title"; "translate"; "upper"; "zfill" ].

Definition py3_list_members : list string :=
  [ "__add__"; "__class__"; "__class_getitem__"; "__contains__";
    "__delattr__"; "__delitem__"; "__dir__"; "__doc__"; "__eq__";
    "__format__"; "__ge__"; "__getattribute__"; "__getitem__"; "__getstate__";
    "__gt__"; "__hash__"; "__iadd__"; "__imul__"; "__init__";
    "__init_subclass__"; "__iter__"; "__le__"; "__len__"; "__lt__"; "__mul__";
    "__ne__"; "__new__"; "__reduce__"; "__reduce_ex__"; "__repr__";
    "__reversed__"; "__rmul__"; "__setattr__"; "__setitem__"; "__sizeof__";
    "__str__"; "__subclasshook__"; "append"; "clear"; "copy"; "count";
    "extend"; "index"; "insert"; "pop"; "remove"; "reverse"; "sort" ].

Definition py3_tuple_members : list string :=
  [ "__add__"; "__class__"; "__class_getitem__"; "__contains__";
    "__delattr__"; "__dir__"; "__doc__"; "__eq__"; "__format__"; "__ge__";
    "__getattribute__"; "__getitem__"; "__getnewargs__"; "__getstate__";
    "__gt__"; "__hash__"; "__init__"; "__init_subclass__"; "__iter__";
    "__le__"; "__len__"; "__lt__"; "__mul__"; "__ne__"; "__new__";
    "__reduce__"; "__reduce_ex__"; "__repr__"; "__rmul__"; "__setattr__";
    "__sizeof__"; "__str__"; "__subclasshook__"; "count"; "index" ].

Definition py3_dict_members : list string :=
  [ "__class__"; "__class_getitem__"; "__contains__"; "__delattr__";
    "__delitem__"; "__dir__"; "__doc__"; "__eq__"; "__format__"; "__ge__";
    "__getattribute__"; "__getitem__"; "__getstate__"; "__gt__"; "__hash__";
    "__init__"; "__init_subclass__"; "__ior__"; "__iter__"; "__le__";
    "__len__"; "__lt__"; "__ne__"; "__new__"; "__or__"; "__reduce__";
    "__reduce_ex__"; "__repr__"; "__reversed__"; "__ror__"; "__setattr__";
    "__setitem__"; "__sizeof__"; "__str__"; "__subclasshook__"; "clear";
    "copy"; "fromkeys"; "get"; "items"; "keys"; "pop"; "popitem";
    "setdefault"; "update"; "values" ].

Definition py3_set_members : list string :=
  [ "__and__"; "__class__"; "__class_getitem__"; "__contains__";
    "__delattr__"; "__dir__"; "__doc__"; "__eq__"; "__format__"; "__ge__";
    "__getattribute__"; "__getstate__"; "__gt__"; "__hash__"; "__iand__";
    "__init__"; "__init_subclass__"; "__ior__"; "__isub__"; "__iter__";
    "__ixor__"; "__le__"; "__len__"; "__lt__"; "__ne__"; "__new__"; "__or__";
    "__rand__"; "__reduce__"; "__reduce_ex__"; "__repr__"; "__ror__";
    "__rsub__"; "__rxor__"; "__setattr__"; "__sizeof__"; "__str__"; "__sub__";
    "__subclasshook__"; "__xor__"; "add"; "clear"; "copy"; "difference";
    "difference_update"; "discard"; "intersection"; "intersection_update";
    "isdisjoint"; "issubset"; "issuperset"; "pop"; "remove";
    "symmetric_difference"; "symmetric_difference_update"; "union"; "update" ].

Definition py3_frozenset_members : list string :=
  [ "__and__"; "__class__"; "__class_getitem__"; "__contains__";
    "__delattr__"; "__dir__"; "__doc__"; "__eq__"; "__format__"; "__ge__";
    "__getattribute__"; "__getstate__"; "__gt__"; "__hash__"; "__init__";
    "__init_subclass__"; "__iter__"; "__le__"; "__len__"; "__lt__"; "__ne__";
    "__new__"; "__or__"; "__rand__"; "__reduce__"; "__reduce_ex__";
    "__repr__"; "__ror__"; "__rsub__"; "__rxor__"; "__setattr__";
    "__sizeof__"; "__str__"; "__sub__"; "__subclasshook__"; "__xor__"; "copy";
    "difference"; "intersection"; "isdisjoint"; "issubset"; "issuperset";
    "symmetric_difference"; "union" ].

Definition py2_bool_members : list string :=
  [ "__abs__"; "__add__"; "__and__"; "__class__"; "__cmp__"; "__coerce__";
    "__delattr__"; "__div__"; "__divmod__"; "__doc__"; "__float__";
    "__floordiv__"; "__format__"; "__getattribute__"; "__getnewargs__";
    "__hash__"; "__hex__"; "__index__"; "__init__"; "__int__"; "__invert__";
    "__long__"; "__lshift__"; "__mod__"; "__mul__"; "__neg__"; "__new__";
    "__nonzero__"; "__oct__"; "__or__"; "__pos__"; "__pow__"; "__radd__";
    "__rand__"; "__rdiv__"; "__rdivmod__"; "__reduce__"; "__reduce_ex__";
    "__repr__"; "__rfloordiv__"; "__rlshift__"; "__rmod__"; "__rmul__";
    "__ror__"; "__rpow__"; "__rrshift__"; "__rshift__"; "__rsub__";
    "__rtruediv__"; "__rxor__"; "__setattr__"; "__sizeof__"; "__str__";
    "__sub__"; "__subclasshook__"; "__truediv__"; "__trunc__"; "__xor__";
    "bit_length"; "conjugate"; "denominator"; "imag"; "numerator"; "real" ].

Definition py2_str_members : list string :=
  [ "__add__"; "__class__"; "__contains__"; "__delattr__"; "__doc__";
    "__eq__"; "__format__"; "__ge__"; "__getattribute__"; "__getitem__";
    "__getnewargs__"; "__getslice__"; "__gt__"; "__hash__"; "__init__";
    "__le__"; "__len__"; "__lt__"; "__mod__"; "__mul__"; "__ne__"; "__new__";
    "__reduce__"; "__reduce_ex__"; "__repr__"; "__rmod__"; "__rmul__";
    "__setattr__"; "__sizeof__"; "__str__"; "__subclasshook__";
    "_formatter_field_name_split"; "_formatter_parser"; "capitalize";
    "center"; "count"; "decode"; "encode"; "endswith"; "expandtabs"; "find";
    "format"; "index"; "isalnum"; "isalpha"; "isdigit"; "islower"; "isspace";
    "istitle"; "isupper"; "join"; "ljust"; "lower"; "lstrip"; "partition";
    "replace"; "rfind"; "rindex"; "rjust"; "rpartition"; "rsplit"; "rstrip";
    "split"; "splitlines"; "startswith"; "strip"; "swapcase"; "title";
    "translate"; "upper"; "zfill" ].

Definition py2_unicode_members : list string :=
  [ "__add__"; "__class__"; "__contains__"; "__delattr__"; "__doc__";
    "__eq__"; "__format__"; "__ge__"; "__getattribute__"; "__getitem__";
    "__getnewargs__"; "__getslice__"; "__gt__"; "__hash__"; "__init__";
    "__le__"; "__len__"; "__lt__"; "__mod__"; "__mul__"; "__ne__"; "__new__";
    "__reduce__"; "__reduce_ex__"; "__repr__"; "__rmod__"; "__rmul__";
    "__setattr__"; "__sizeof__"; "__str__"; "__subclasshook__";
    "_formatter_field_name_split"; "_formatter_parser"; "capitalize";
    "center"; "count"; "decode"; "encode"; "endswith"; "expandtabs"; "find";
    "format"; "index"; "isalnum"; "isalpha"; "isdecimal"; "isdigit";
    "islower"; "isnumeric"; "isspace"; "istitle"; "isupper"; "join"; "ljust";
    "lower"; "lstrip"; "partition"; "replace"; "rfind"; "rindex"; "rjust";
    "rpartition"; "rsplit"; "rstrip"; "split"; "splitlines"; "startswith";
    "strip"; "swapcase"; "title"; "translate"; "upper"; "zfill" ].

Definition py2_bytearray_members : list string :=
  [ "__add__"; "__alloc__"; "__class__"; "__contains__"; "__delattr__";
    "__delitem__"; "__doc__"; "__eq__"; "__format__"; "__ge__";
    "__getattribute__"; "__getitem__"; "__gt__"; "__hash__"; "__iadd__";
    "__imul__"; "__init__"; "__iter__"; "__le__"; "__len__"; "__lt__";
    "__mul__"; "__ne__"; "__new__"; "__reduce__"; "__reduce_ex__"; "__repr__";
    "__rmul__"; "__setattr__"; "__setitem__"; "__sizeof__"; "__str__";
    "__subclasshook__"; "append"; "capitalize"; "center"; "count"; "decode";
    "endswith"; "expandtabs"; "extend"; "find"; "fromhex"; "index"; "insert";
    "isalnum"; "isalpha"; "isdigit"; "islower"; "isspace"; "istitle";
    "isupper"; "join"; "ljust"; "lower"; "lstrip"; "partition"; "pop";
    "remove"; "replace"; "reverse"; "rfind"; "rindex"; "rjust"; "rpartition";
    "rsplit"; "rstrip"; "split"; "splitlines"; "startswith"; "strip";
    "swapcase"; "title"; "translate"; "upper"; "zfill" ].

Definition py2_list_members : list string :=
  [ "__add__"; "__class__"; "__contains__"; "__delattr__"; "__delitem__";
    "__delslice__"; "__doc__"; "__eq__"; "__format__"; "__ge__";
    "__getattribute__"; "__getitem__"; "__getslice__"; "__gt__"; "__hash__";
    "__iadd__"; "__imul__"; "__init__"; "__iter__"; "__le__"; "__len__";
    "__lt__"; "__mul__"; "__ne__"; "__new__"; "__reduce__"; "__reduce_ex__";
    "__repr__"; "__reversed__"; "__rmul__"; "__setattr__"; "__setitem__";
    "__setslice__"; "__sizeof__"; "__str__"; "__subclasshook__"; "append";
    "count"; "extend"; "index"; "insert"; "pop"; "remove"; "reverse"; "sort" ].

Definition py2_tuple_members : list string :=
  [ "__add__"; "__class__"; "__contains__"; "__delattr__"; "__doc__";
    "__eq__"; "__format__"; "__ge__"; "__getattribute__"; "__getitem__";
    "__getnewargs__"; "__getslice__"; "__gt__"; "__hash__"; "__init__";
    "__iter__"; "__le__"; "__len__"; "__lt__"; "__mul__"; "__ne__"; "__new__";
    "__reduce__"; "__reduce_ex__"; "__repr__"; "__rmul__"; "__setattr__";
    "__sizeof__"; "__str__"; "__subclasshook__"; "count"; "index" ].

Definition py2_dict_members : list string :=
  [ "__class__"; "__cmp__"; "__contains__"; "__delattr__"; "__delitem__";
    "__doc__"; "__eq__"; "__format__"; "__ge__"; "__getattribute__";
    "__getitem__"; "__gt__"; "__hash__"; "__init__"; "__iter__"; "__le__";
    "__len__"; "__lt__"; "__ne__"; "__new__"; "__reduce__"; "__reduce_ex__";
    "__repr__"; "__setattr__"; "__setitem__"; "__sizeof__"; "__str__";
    "__subclasshook__"; "clear"; "copy"; "fromkeys"; "get"; "has_key";
    "items"; "iteritems"; "iterkeys"; "itervalues"; "keys"; "pop"; "popitem";
    "setdefault"; "update"; "values"; "viewitems"; "viewkeys"; "viewvalues" ].

Definition py2_set_members : list string :=
  [ "__and__"; "__class__"; "__cmp__"; "__contains__"; "__delattr__";
    "__doc__"; "__eq__"; "__format__"; "__ge__"; "__getattribute__"; "__gt__";
    "__hash__"; "__iand__"; "__init__"; "__ior__"; "__isub__"; "__iter__";
    "__ixor__"; "__le__"; "__len__"; "__lt__"; "__ne__"; "__new__"; "__or__";
    "__rand__"; "__reduce__"; "__reduce_ex__"; "__repr__"; "__ror__";
    "__rsub__"; "__rxor__"; "__setattr__"; "__sizeof__"; "__str__"; "__sub__";
    "__subclasshook__"; "__xor__"; "add"; "clear"; "copy"; "difference";
    "difference_update"; "discard"; "intersection"; "intersection_update";
    "isdisjoint"; "issubset"; "issuperset"; "pop"; "remove";
    "symmetric_difference"; "symmetric_difference_update"; "union"; "update" ].

Definition py2_frozenset_members : list string :=
  [ "__and__"; "__class__"; "__cmp__"; "__contains__"; "__delattr__";
    "__doc__"; "__eq__"; "__format__"; "__ge__"; "__getattribute__"; "__gt__";
    "__hash__"; "__init__"; "__iter__"; "__le__"; "__len__"; "__lt__";
    "__ne__"; "__new__"; "__or__"; "__rand__"; "__reduce__"; "__reduce_ex__";
    "__repr__"; "__ror__"; "__rsub__"; "__rxor__"; "__setattr__";
    "__sizeof__"; "__str__"; "__sub__"; "__subclasshook__"; "__xor__"; "copy";
    "difference"; "intersection"; "isdisjoint"; "issubset"; "issuperset";
    "symmetric_difference"; "union" ].

Definition cpython3 : Runtime := {|
  str_is_bytes := false;
  members := fun t =>
    match t with
    | ty_bool => py3_bool_members
    | ty_str => py3_str_members
    | ty_unicode => py3_str_members
    | ty_bytes => py3_bytes_members
    | ty_bytearray => py3_bytearray_members
    | ty_list => py3_list_members
    | ty_tuple => py3_tuple_members
    | ty_dict => py3_dict_members
    | ty_set => py3_set_members
    | ty_frozenset => py3_frozenset_members
    end
|}.

Definition cpython2 : Runtime := {|
  str_is_bytes := true;
  members := fun t =>
    match t with
    | ty_bool => py2_bool_members
    | ty_str => py2_str_members
    | ty_unicode => py2_unicode_members
    | ty_bytes => py2_str_members
    | ty_bytearray => py2_bytearray_members
    | ty_list => py2_list_members
    | ty_tuple => py2_tuple_members
    | ty_dict => py2_dict_members
    | ty_set => py2_set_members
    | ty_frozenset => py2_frozenset_members
    end
|}.

(** ** What the module imports *)

(** Modelled from the spec: the names the module imports from
    [.shapes.BuiltinTypeShapes], a module that is not among the sources,
    one constructor per imported name; the spec's ShapeKind is a closed
    set of eleven tags. *)
Inductive TypeShape : Type :=
| tshape_bool | tshape_bytearray | tshape_bytes | tshape_dict
| tshape_frozenset | tshape_list | tshape_set | tshape_str
| tshape_str_or_unicode | tshape_tuple | tshape_unicode.

(** Modelled from the spec: the constants the module imports from
    [nuitka.Constants], which is not among the sources; the spec has
    each as the canonical empty value of its built-in type. *)
Definition the_empty_bytearray : PyObject := PyBytearray EmptyString.
Definition the_empty_dict : PyObject := PyDict [].
Definition the_empty_frozenset : PyObject := PyFrozenset [].
Definition the_empty_list : PyObject := PyList [].
Definition the_empty_set : PyObject := PySet [].
Definition the_empty_tuple : PyObject := PyTuple [].

(** Modelled from the spec: the source-location token a node carries. *)
Record SourceRef : Type := {
  filename : string;
  line : nat
}.

(** Modelled from the spec: the node [makeConstantRefNode] of
    [.ConstantRefNodes] builds, which is not among the sources; the spec
    has it as a placeholder tagged with the constant handed in, together
    with the source location, and otherwise opaque. *)
Record ExpressionConstantRef : Type := {
  constant : PyValue;
  constant_source_ref : SourceRef
}.

Definition makeConstantRefNode (constant : PyValue) (source_ref : SourceRef)
  : ExpressionConstantRef :=
  {| constant := constant; constant_source_ref := source_ref |}.

(** ** The classes of the module *)

(** The classes the module defines.  The last one is the class of the
    [else] branch of the module's final [if str is not bytes]. *)
Inductive ClassName : Type :=
| ExpressionSpecificExactMixinBase
| ExpressionDictShapeExactMixin
| ExpressionListShapeExactMixin
| ExpressionFrozensetShapeExactMixin
| ExpressionSetShapeExactMixin
| ExpressionTupleShapeExactMixin
| ExpressionBoolShapeExactMixin
| ExpressionStrExactMixin
| ExpressionBytesShapeExactMixin
| ExpressionBytearrayShapeExactMixin
| ExpressionUnicodeShapeExactMixin
| ExpressionStrOrUnicodeExactMixin_distinct.

(** The exact-shape methods, by name (the source spells "Frozeset"). *)
Inductive ShapeQuery : Type :=
| hasShapeBoolExact
| hasShapeDictionaryExact
| hasShapeListExact
| hasShapeSetExact
| hasShapeFrozesetExact
| hasShapeTupleExact
| hasShapeStrExact
| hasShapeUnicodeExact
| hasShapeStrOrUnicodeExact
| hasShapeBytesExact
| hasShapeBytearrayExact.

(** A node: an instance of one of the classes, with its source
    reference. *)
Record Node : Type := {
  node_class : ClassName;
  source_ref : SourceRef
}.

(** The base classes: the base mixin derives from [object], every
    other class from the base mixin. *)
Definition bases (c : ClassName) : list ClassName :=
  match c with
  | ExpressionSpecificExactMixinBase => []
  | _ => [ExpressionSpecificExactMixinBase]
  end.

(** The classes a method is searched in, in order. *)
Definition mro (c : ClassName) : list ClassName := c :: bases c.

(** The first definition found along the classes, if any. *)
Fixpoint resolve {A : Type} (def : ClassName -> option A)
  (classes : list ClassName) : option A :=
  match classes with
  | [] => None
  | c :: rest =>
      match def c with
      | Some m => Some m
      | None => resolve def rest
      end
  end.

(** Looking a method up on a node; a method no class defines is an
    AttributeError. *)
Definition method {A : Type} (def : ClassName -> option A) (self : Node)
  : Outcome A :=
  match resolve def (mro (node_class self)) with
  | Some m => Returns m
  | None => Raises AttributeError
  end.

(** ** The class bodies

    One table per method name: what the body of each class defines for
    it, [None] where the body has no definition of that name. *)

(** The [hasShape...Exact] static methods. *)
Definition hasShapeExact_in (c : ClassName) (q : ShapeQuery) : option bool :=
  match c, q with
  | ExpressionSpecificExactMixinBase, _ => Some false
  | ExpressionDictShapeExactMixin, hasShapeDictionaryExact => Some true
  | ExpressionListShapeExactMixin, hasShapeListExact => Some true
  | ExpressionFrozensetShapeExactMixin, hasShapeListExact => Some true
  | ExpressionSetShapeExactMixin, hasShapeSetExact => Some true
  | ExpressionTupleShapeExactMixin, hasShapeSetExact => Some true
  | ExpressionBoolShapeExactMixin, hasShapeBoolExact => Some true
  | ExpressionStrExactMixin, hasShapeStrExact => Some true
  | ExpressionStrExactMixin, hasShapeStrOrUnicodeExact => Some true
  | ExpressionBytesShapeExactMixin, hasShapeBytesExact => Some true
  | ExpressionBytearrayShapeExactMixin, hasShapeBytearrayExact => Some true
  | ExpressionUnicodeShapeExactMixin, hasShapeUnicodeExact => Some true
  | ExpressionUnicodeShapeExactMixin, hasShapeStrOrUnicodeExact => Some true
  | ExpressionStrOrUnicodeExactMixin_distinct, hasShapeStrOrUnicodeExact =>
      Some true
  | _, _ => None
  end.

Definition hasShapeTrustedAttributes_in (c : ClassName) : option bool :=
  match c with
  | ExpressionSpecificExactMixinBase => Some true
  | _ => None
  end.

Definition getTypeShape_in (c : ClassName) : option TypeShape :=
  match c with
  | ExpressionSpecificExactMixinBase => None
  | ExpressionDictShapeExactMixin => Some tshape_dict
  | ExpressionListShapeExactMixin => Some tshape_list
  | ExpressionFrozensetShapeExactMixin => Some tshape_frozenset
  | ExpressionSetShapeExactMixin => Some tshape_set
  | ExpressionTupleShapeExactMixin => Some tshape_tuple
  | ExpressionBoolShapeExactMixin => Some tshape_bool
  | ExpressionStrExactMixin => Some tshape_str
  | ExpressionBytesShapeExactMixin => Some tshape_bytes
  | ExpressionBytearrayShapeExactMixin => Some tshape_bytearray
  | ExpressionUnicodeShapeExactMixin => Some tshape_unicode
  | ExpressionStrOrUnicodeExactMixin_distinct => Some tshape_str_or_unicode
  end.

(** [isKnownToBeHashable] returns [True], [False] or [None]: an
    [option bool], with [None] for Python's [None]. *)
Definition isKnownToBeHashable_in (c : ClassName) : option (option bool) :=
  match c with
  | ExpressionSpecificExactMixinBase => None
  | ExpressionDictShapeExactMixin => Some (Some false)
  | ExpressionListShapeExactMixin => Some (Some false)
  | ExpressionFrozensetShapeExactMixin => Some (Some true)
  | ExpressionSetShapeExactMixin => Some (Some false)
  | ExpressionTupleShapeExactMixin => Some None
  | ExpressionBoolShapeExactMixin => Some (Some true)
  | ExpressionStrExactMixin => Some (Some true)
  | ExpressionBytesShapeExactMixin => Some (Some true)
  | ExpressionBytearrayShapeExactMixin => Some (Some false)
  | ExpressionUnicodeShapeExactMixin => Some (Some true)
  | ExpressionStrOrUnicodeExactMixin_distinct => Some (Some true)
  end.

Definition mayRaiseExceptionBool_in (c : ClassName)
  : option (ExceptionType -> bool) :=
  match c with
  | ExpressionSpecificExactMixinBase => Some (fun exception_type => false)
  | _ => None
  end.

Definition mayHaveSideEffectsBool_in (c : ClassName) : option bool :=
  match c with
  | ExpressionSpecificExactMixinBase => Some false
  | _ => None
  end.

(** [extractUnhashableNodeType]: the node for the type object, at the
    source reference of the node asked. *)
Definition extractUnhashableNodeType_in (c : ClassName)
  : option (Node -> ExpressionConstantRef) :=
  match c with
  | ExpressionDictShapeExactMixin =>
      Some (fun self => makeConstantRefNode (ValType ty_dict) (source_ref self))
  | ExpressionListShapeExactMixin =>
      Some (fun self => makeConstantRefNode (ValType ty_list) (source_ref self))
  | ExpressionSetShapeExactMixin =>
      Some (fun self => makeConstantRefNode (ValType ty_set) (source_ref self))
  | ExpressionBytearrayShapeExactMixin =>
      Some (fun self =>
              makeConstantRefNode (ValType ty_bytearray) (source_ref self))
  | _ => None
  end.

Section Mixins.

Variable rt : Runtime.

(** The name [ExpressionStrOrUnicodeExactMixin]: bound to the str
    mixin itself where [str is not bytes], to a class of its own
    otherwise. *)
Definition ExpressionStrOrUnicodeExactMixin : ClassName :=
  if negb (str_is_bytes rt) then ExpressionStrExactMixin
  else ExpressionStrOrUnicodeExactMixin_distinct.

Definition isKnownToHaveAttribute_in (c : ClassName)
  : option (string -> bool) :=
  match c with
  | ExpressionSpecificExactMixinBase => Some (fun attribute_name => true)
  | ExpressionDictShapeExactMixin => Some (hasattr rt the_empty_dict)
  | ExpressionListShapeExactMixin => Some (hasattr rt the_empty_list)
  | ExpressionFrozensetShapeExactMixin =>
      Some (hasattr rt the_empty_frozenset)
  | ExpressionSetShapeExactMixin => Some (hasattr rt the_empty_set)
  | ExpressionTupleShapeExactMixin => Some (hasattr rt the_empty_tuple)
  | ExpressionBoolShapeExactMixin => Some (hasattr rt (PyBool false))
  | ExpressionStrExactMixin => Some (hasattr rt (str_literal EmptyString))
  | ExpressionBytesShapeExactMixin => Some (hasattr rt (bytes_literal rt EmptyString))
  | ExpressionBytearrayShapeExactMixin =>
      Some (hasattr rt the_empty_bytearray)
  | ExpressionUnicodeShapeExactMixin =>
      Some (hasattr rt (unicode_literal rt EmptyString))
  | ExpressionStrOrUnicodeExactMixin_distinct =>
      Some (fun attribute_name =>
              hasattr rt (unicode_literal rt EmptyString) attribute_name
              && hasattr rt (str_literal EmptyString) attribute_name)
  end.

(** The base's body is a docstring only: it returns [None]. *)
Definition getKnownAttributeValue_in (c : ClassName)
  : option (string -> Outcome PyValue) :=
  match c with
  | ExpressionSpecificExactMixinBase =>
      Some (fun attribute_name => Returns ValNone)
  | ExpressionDictShapeExactMixin => Some (getattr rt the_empty_dict)
  | ExpressionListShapeExactMixin => Some (getattr rt the_empty_list)
  | ExpressionFrozensetShapeExactMixin =>
      Some (getattr rt the_empty_frozenset)
  | ExpressionSetShapeExactMixin => Some (getattr rt the_empty_set)
  | ExpressionTupleShapeExactMixin => Some (getattr rt the_empty_tuple)
  | ExpressionBoolShapeExactMixin => Some (getattr rt (PyBool false))
  | ExpressionStrExactMixin => Some (getattr rt (str_literal EmptyString))
  | ExpressionBytesShapeExactMixin => Some (getattr rt (bytes_literal rt EmptyString))
  | ExpressionBytearrayShapeExactMixin =>
      Some (getattr rt the_empty_bytearray)
  | ExpressionUnicodeShapeExactMixin =>
      Some (getattr rt (unicode_literal rt EmptyString))
  | ExpressionStrOrUnicodeExactMixin_distinct =>
      Some (getattr rt (str_literal EmptyString))
  end.

(** ** Calls on a node *)

Definition hasShapeExact (self : Node) (q : ShapeQuery) : Outcome bool :=
  method (fun c => hasShapeExact_in c q) self.

Definition hasShapeTrustedAttributes (self : Node) : Outcome bool :=
  method hasShapeTrustedAttributes_in self.

Definition getTypeShape (self : Node) : Outcome TypeShape :=
  method getTypeShape_in self.

Definition isKnownToHaveAttribute (self : Node) (attribute_name : string)
  : Outcome bool :=
  f <- method isKnownToHaveAttribute_in self ;;
  Returns (f attribute_name).

Definition getKnownAttributeValue (self : Node) (attribute_name : string)
  : Outcome PyValue :=
  f <- method getKnownAttributeValue_in self ;;
  f attribute_name.

(** Defined once, in the base: [not self.isKnownToHaveAttribute(...)],
    which resolves on the class of [self]. *)
Definition mayRaiseExceptionAttributeLookup_in (c : ClassName)
  : option (Node -> ExceptionType -> string -> Outcome bool) :=
  match c with
  | ExpressionSpecificExactMixinBase =>
      Some (fun self exception_type attribute_name =>
              b <- isKnownToHaveAttribute self attribute_name ;;
              Returns (negb b))
  | _ => None
  end.

Definition mayRaiseExceptionAttributeLookup (self : Node)
  (exception_type : ExceptionType) (attribute_name : string)
  : Outcome bool :=
  f <- method mayRaiseExceptionAttributeLookup_in self ;;
  f self exception_type attribute_name.

Definition mayRaiseExceptionBool (self : Node)
  (exception_type : ExceptionType) : Outcome bool :=
  f <- method mayRaiseExceptionBool_in self ;;
  Returns (f exception_type).

Definition mayHaveSideEffectsBool (self : Node) : Outcome bool :=
  method mayHaveSideEffectsBool_in self.

Definition isKnownToBeHashable (self : Node) : Outcome (option bool) :=
  method isKnownToBeHashable_in self.

Definition extractUnhashableNodeType (self : Node)
  : Outcome ExpressionConstantRef :=
  f <- method extractUnhashableNodeType_in self ;;
  Returns (f self).

End Mixins.

(** ** The vocabulary of the specification *)

(** The three hashability verdicts, and how the Python result reads as
    one: [True] is Always, [False] is Never, [None] is Unknown. *)
Inductive Verdict : Type := Always | Never | Unknown.

Definition verdict_of (r : option bool) : Verdict :=
  match r with
  | Some true => Always
  | Some false => Never
  | None => Unknown
  end.

Definition hashability_verdict (self : Node) : Outcome Verdict :=
  r <- isKnownToBeHashable self ;;
  Returns (verdict_of r).

(** The hashability table as the specification words it. *)
Definition spec_hashability (K : TypeShape) : Verdict :=
  match K with
  | tshape_dict | tshape_list | tshape_set | tshape_bytearray => Never
  | tshape_bool | tshape_str | tshape_unicode | tshape_str_or_unicode
  | tshape_bytes | tshape_frozenset => Always
  | tshape_tuple => Unknown
  end.

(** The exact-shape query that names a shape. *)
Definition exact_query (K : TypeShape) : ShapeQuery :=
  match K with
  | tshape_bool => hasShapeBoolExact
  | tshape_bytearray => hasShapeBytearrayExact
  | tshape_bytes => hasShapeBytesExact
  | tshape_dict => hasShapeDictionaryExact
  | tshape_frozenset => hasShapeFrozesetExact
  | tshape_list => hasShapeListExact
  | tshape_set => hasShapeSetExact
  | tshape_str => hasShapeStrExact
  | tshape_str_or_unicode => hasShapeStrOrUnicodeExact
  | tshape_tuple => hasShapeTupleExact
  | tshape_unicode => hasShapeUnicodeExact
  end.

(** The three text shapes, which the specification exempts from the
    "exactly one" rule. *)
Definition is_text_shape (K : TypeShape) : bool :=
  match K with
  | tshape_str | tshape_unicode | tshape_str_or_unicode => true
  | _ => false
  end.

Section Catalog.

Variable rt : Runtime.

(** The mixin that realizes a shape. *)
Definition mixin_of_shape (K : TypeShape) : ClassName :=
  match K with
  | tshape_bool => ExpressionBoolShapeExactMixin
  | tshape_bytearray => ExpressionBytearrayShapeExactMixin
  | tshape_bytes => ExpressionBytesShapeExactMixin
  | tshape_dict => ExpressionDictShapeExactMixin
  | tshape_frozenset => ExpressionFrozensetShapeExactMixin
  | tshape_list => ExpressionListShapeExactMixin
  | tshape_set => ExpressionSetShapeExactMixin
  | tshape_str => ExpressionStrExactMixin
  | tshape_str_or_unicode => ExpressionStrOrUnicodeExactMixin rt
  | tshape_tuple => ExpressionTupleShapeExactMixin
  | tshape_unicode => ExpressionUnicodeShapeExactMixin
  end.

(** A node bound to a shape. *)
Definition node_of (K : TypeShape) (sr : SourceRef) : Node :=
  {| node_class := mixin_of_shape K; source_ref := sr |}.

(** The built-in type of a shape; for the str-or-unicode shape the
    narrow one, which the specification names as the one values are
    taken from. *)
Definition shape_type (K : TypeShape) : BuiltinType :=
  match K with
  | tshape_bool => ty_bool
  | tshape_bytearray => ty_bytearray
  | tshape_bytes => bytes_type rt
  | tshape_dict => ty_dict
  | tshape_frozenset => ty_frozenset
  | tshape_list => ty_list
  | tshape_set => ty_set
  | tshape_str => ty_str
  | tshape_str_or_unicode => ty_str
  | tshape_tuple => ty_tuple
  | tshape_unicode => unicode_type rt
  end.

(** The rule of the specification for one shape: the exact-shape
    queries answered with true are the shape's own, and no other. *)
Definition exact_shape_invariant (K : TypeShape) : Prop :=
  forall (sr : SourceRef) (q : ShapeQuery),
    hasShapeExact (node_of K sr) q = Returns true <-> q = exact_query K.

End Catalog.

Definition some_source_ref : SourceRef :=
  {| filename := "module.py"; line := 1 |}.

(** The exact-shape queries, all of them, and the ones a node answers
    with true. *)
Definition all_shape_queries : list ShapeQuery :=
  [ hasShapeBoolExact; hasShapeDictionaryExact; hasShapeListExact;
    hasShapeSetExact; hasShapeFrozesetExact; hasShapeTupleExact;
    hasShapeStrExact; hasShapeUnicodeExact; hasShapeStrOrUnicodeExact;
    hasShapeBytesExact; hasShapeBytearrayExact ].

Definition answers_true (self : Node) (q : ShapeQuery) : bool :=
  match hasShapeExact self q with
  | Returns b => b
  | Raises _ => false
  end.

Definition true_queries (self : Node) : list ShapeQuery :=
  filter (answers_true self) all_shape_queries.

(** The classes whose [isKnownToHaveAttribute] and
    [getKnownAttributeValue] probe one and the same instance: all but
    the base and the separate str-or-unicode class. *)
Definition probes_one_instance (c : ClassName) : bool :=
  match c with
  | ExpressionSpecificExactMixinBase => false
  | ExpressionStrOrUnicodeExactMixin_distinct => false
  | _ => true
  end.

(** ** Objects by reference

    [getattr] on an object gives a method bound to that very object,
    and Python compares two bound built-in methods equal only when they
    are bound to the same object.  So the object a value was looked up
    on matters, beyond its contents. *)

(** Which object: one a module-level name of [nuitka.Constants] is
    bound to, created once when that module is imported; the one an
    empty literal of a type, or [False], evaluates to; or one a later
    call of a constructor creates, counted from the first. *)
Inductive Identity : Type :=
| id_constant (name : string)
| id_literal (t : BuiltinType)
| id_allocated (n : nat).

Record PyRef : Type := {
  ref_id : Identity;
  ref_val : PyObject
}.



(** The objects the module's names and literals denote. *)
Definition ref_the_empty_bytearray : PyRef :=
  {| ref_id := id_constant "the_empty_bytearray";
     ref_val := the_empty_bytearray |}.
Definition ref_the_empty_dict : PyRef :=
  {| ref_id := id_constant "the_empty_dict"; ref_val := the_empty_dict |}.
Definition ref_the_empty_frozenset : PyRef :=
  {| ref_id := id_constant "the_empty_frozenset";
     ref_val := the_empty_frozenset |}.
Definition ref_the_empty_list : PyRef :=
  {| ref_id := id_constant "the_empty_list"; ref_val := the_empty_list |}.
Definition ref_the_empty_set : PyRef :=
  {| ref_id := id_constant "the_empty_set"; ref_val := the_empty_set |}.
Definition ref_the_empty_tuple : PyRef :=
  {| ref_id := id_constant "the_empty_tuple"; ref_val := the_empty_tuple |}.

Definition literal_ref (o : PyObject) : PyRef :=
  {| ref_id := id_literal (type_of o); ref_val := o |}.



(** The result of an attribute lookup, with the object it was looked
    up on. *)
Inductive RefValue : Type :=
| RefNone
| RefMember (self : PyRef) (name : string).

Definition erase (v : RefValue) : PyValue :=
  match v with
  | RefNone => ValNone
  | RefMember self name => ValMember (ref_val self) name
  end.

Definition map_outcome {A B : Type} (f : A -> B) (m : Outcome A) : Outcome B :=
  x <- m ;; Returns (f x).



Section ByReference.

Variable rt : Runtime.

(** [getattr(o, name)], keeping the receiver. *)
Definition getattr_ref (o : PyRef) (name : string) : Outcome RefValue :=
  if hasattr rt (ref_val o) name then Returns (RefMember o name)
  else Raises AttributeError.



(** [getKnownAttributeValue] once more, class by class, with the
    object each body hands to [getattr]. *)
Definition getKnownAttributeValue_ref_in (c : ClassName)
  : option (string -> Outcome RefValue) :=
  match c with
  | ExpressionSpecificExactMixinBase =>
      Some (fun attribute_name => Returns RefNone)
  | ExpressionDictShapeExactMixin => Some (getattr_ref ref_the_empty_dict)
  | ExpressionListShapeExactMixin => Some (getattr_ref ref_the_empty_list)
  | ExpressionFrozensetShapeExactMixin =>
      Some (getattr_ref ref_the_empty_frozenset)
  | ExpressionSetShapeExactMixin => Some (getattr_ref ref_the_empty_set)
  | ExpressionTupleShapeExactMixin => Some (getattr_ref ref_the_empty_tuple)
  | ExpressionBoolShapeExactMixin =>
      Some (getattr_ref (literal_ref (PyBool false)))
  | ExpressionStrExactMixin =>
      Some (getattr_ref (literal_ref (str_literal EmptyString)))
  | ExpressionBytesShapeExactMixin =>
      Some (getattr_ref (literal_ref (bytes_literal rt EmptyString)))
  | ExpressionBytearrayShapeExactMixin =>
      Some (getattr_ref ref_the_empty_bytearray)
  | ExpressionUnicodeShapeExactMixin =>
      Some (getattr_ref (literal_ref (unicode_literal rt EmptyString)))
  | ExpressionStrOrUnicodeExactMixin_distinct =>
      Some (getattr_ref (literal_ref (str_literal EmptyString)))
  end.

Definition getKnownAttributeValue_ref (self : Node) (attribute_name : string)
  : Outcome RefValue :=
  f <- method getKnownAttributeValue_ref_in self ;;
  f attribute_name.


End ByReference.

(** * Properties *)

(** ** Method resolution *)

Lemma resolve_own {A : Type} (def : ClassName -> option A) c rest m :
  def c = Some m -> resolve def (c :: rest) = Some m.
Proof. intros H. simpl. now rewrite H. Qed.

Lemma resolve_inherited {A : Type} (def : ClassName -> option A) c rest :
  def c = None -> resolve def (c :: rest) = resolve def rest.
Proof. intros H. simpl. now rewrite H. Qed.

(** A method the base defines and no other class overrides is the
    base's, on every node. *)
Lemma method_base_only {A : Type} (def : ClassName -> option A) (m : A) :
  def ExpressionSpecificExactMixinBase = Some m ->
  (forall c, c <> ExpressionSpecificExactMixinBase -> def c = None) ->
  forall self, method def self = Returns m.
Proof.
  intros Hbase Hothers [c sr]. unfold method, mro. simpl node_class.
  destruct c; simpl bases;
    try (rewrite resolve_inherited by (apply Hothers; discriminate));
    now rewrite (resolve_own _ _ _ m Hbase).
Qed.

(** Every class has [isKnownToHaveAttribute] in its own body. *)
Lemma isKnownToHaveAttribute_defined rt (c : ClassName) :
  exists f, isKnownToHaveAttribute_in rt c = Some f.
Proof. destruct c; simpl; eexists; reflexivity. Qed.

Lemma isKnownToHaveAttribute_returns rt (self : Node) name :
  exists b, isKnownToHaveAttribute rt self name = Returns b.
Proof.
  destruct self as [c sr].
  destruct (isKnownToHaveAttribute_defined rt c) as [f Hf].
  exists (f name). unfold isKnownToHaveAttribute, method, mro.
  simpl node_class. now rewrite (resolve_own _ _ _ f Hf).
Qed.

(** The other shapes, the text shapes apart, keep the rule. *)
Lemma exact_shape_invariant_others rt (K : TypeShape) :
  is_text_shape K = false ->
  K <> tshape_frozenset -> K <> tshape_tuple ->
  exact_shape_invariant rt K.
Proof.
  intros Htext Hf Ht sr q.
  destruct K; try discriminate Htext; try congruence;
    destruct q; cbv; split; intros H; try reflexivity; discriminate H.
Qed.

(** ** The claims *)

(** C1. The rule "a node answers true to the exact-shape query of its
    own shape and to no other" is broken by two classes: the frozenset
    mixin defines [hasShapeListExact], so a frozenset node answers
    false to [hasShapeFrozesetExact] and true to [hasShapeListExact];
    the tuple mixin defines [hasShapeSetExact], so a tuple node answers
    false to [hasShapeTupleExact] and true to [hasShapeSetExact]. *)
Theorem C1_frozenset_tuple_answer_wrong_query (rt : Runtime) (sr : SourceRef) :
  hasShapeExact (node_of rt tshape_frozenset sr) hasShapeFrozesetExact
    = Returns false
  /\ hasShapeExact (node_of rt tshape_frozenset sr) hasShapeListExact
    = Returns true
  /\ hasShapeExact (node_of rt tshape_tuple sr) hasShapeTupleExact
    = Returns false
  /\ hasShapeExact (node_of rt tshape_tuple sr) hasShapeSetExact
    = Returns true
  /\ ~ exact_shape_invariant rt tshape_frozenset
  /\ ~ exact_shape_invariant rt tshape_tuple.
Proof.
  repeat split; try reflexivity.
  - intros H.
    assert (E : hasShapeFrozesetExact = exact_query tshape_frozenset)
      by reflexivity.
    apply (H some_source_ref hasShapeFrozesetExact) in E. discriminate E.
  - intros H.
    assert (E : hasShapeTupleExact = exact_query tshape_tuple)
      by reflexivity.
    apply (H some_source_ref hasShapeTupleExact) in E. discriminate E.
Qed.

(** The verdict of the node of a shape, computed class by class. *)
Lemma hashability_verdict_of_shape rt K sr :
  hashability_verdict (node_of rt K sr) = Returns (spec_hashability K).
Proof.
  destruct K; try reflexivity.
  unfold hashability_verdict, isKnownToBeHashable, method, node_of.
  simpl. unfold ExpressionStrOrUnicodeExactMixin.
  destruct (str_is_bytes rt); reflexivity.
Qed.

(** C2. The hashability verdict of the node of every shape is the one
    of the table: Never for dict, list, set and bytearray, Always for
    bool, str, unicode, str-or-unicode, bytes and frozenset, Unknown for
    tuple; on every runtime. *)
Theorem C2_hashability_verdict_is_table
  (rt : Runtime) (K : TypeShape) (sr : SourceRef) :
  hashability_verdict (node_of rt K sr) = Returns (spec_hashability K).
Proof. apply hashability_verdict_of_shape. Qed.

(** C3. On every node, for every exception type and attribute name,
    [mayRaiseExceptionAttributeLookup] returns the negation of what
    [isKnownToHaveAttribute] returns for the name, and so the same for
    any two exception types. *)
Theorem C3_may_raise_is_negated_existence
  (rt : Runtime) (self : Node) (exception_type : ExceptionType)
  (attribute_name : string) :
  (exists b,
      isKnownToHaveAttribute rt self attribute_name = Returns b
      /\ mayRaiseExceptionAttributeLookup rt self exception_type attribute_name
         = Returns (negb b))
  /\ forall other_type,
      mayRaiseExceptionAttributeLookup rt self other_type attribute_name
      = mayRaiseExceptionAttributeLookup rt self exception_type attribute_name.
Proof.
  assert (Hm : forall self',
             method (mayRaiseExceptionAttributeLookup_in rt) self'
             = Returns (fun self exception_type attribute_name =>
                          b <- isKnownToHaveAttribute rt self attribute_name ;;
                          Returns (negb b))).
  { apply method_base_only; [reflexivity|].
    intros c Hc; destruct c; try reflexivity; now elim Hc. }
  split.
  - destruct (isKnownToHaveAttribute_returns rt self attribute_name) as [b Hb].
    exists b. split; [exact Hb|].
    unfold mayRaiseExceptionAttributeLookup. rewrite Hm. simpl.
    now rewrite Hb.
  - intros other_type. unfold mayRaiseExceptionAttributeLookup.
    rewrite Hm. reflexivity.
Qed.

(** C4. On every node and for every exception type,
    [mayRaiseExceptionBool] returns false and [mayHaveSideEffectsBool]
    returns false. *)
Theorem C4_bool_conversion_is_safe
  (self : Node) (exception_type : ExceptionType) :
  mayRaiseExceptionBool self exception_type = Returns false
  /\ mayHaveSideEffectsBool self = Returns false.
Proof.
  split.
  - unfold mayRaiseExceptionBool.
    rewrite (method_base_only mayRaiseExceptionBool_in (fun _ => false)).
    + reflexivity.
    + reflexivity.
    + intros c Hc; destruct c; try reflexivity; now elim Hc.
  - unfold mayHaveSideEffectsBool.
    apply method_base_only; [reflexivity|].
    intros c Hc; destruct c; try reflexivity; now elim Hc.
Qed.

(** The instance every class but the base probes for values is the
    freshly constructed zero value of the shape's built-in type. *)
Lemma getKnownAttributeValue_probes_zero_value rt K sr name :
  getKnownAttributeValue rt (node_of rt K sr) name
  = getattr rt (construct (shape_type rt K)) name.
Proof.
  unfold getKnownAttributeValue, method, node_of.
  destruct K; simpl; try reflexivity;
    unfold ExpressionStrOrUnicodeExactMixin, bytes_literal, bytes_type,
      unicode_literal, unicode_type;
    destruct (str_is_bytes rt); reflexivity.
Qed.


(** Forgetting the receiver's identity gives the lookup by contents. *)
Lemma getKnownAttributeValue_ref_erase rt self name :
  map_outcome erase (getKnownAttributeValue_ref rt self name)
  = getKnownAttributeValue rt self name.
Proof.
  destruct self as [c sr].
  unfold getKnownAttributeValue_ref, getKnownAttributeValue, method,
    map_outcome.
  destruct c; simpl; try reflexivity;
    unfold getattr_ref, getattr; simpl;
    match goal with
    | |- context [hasattr rt ?o name] => destruct (hasattr rt o name)
    end; reflexivity.
Qed.






(** C6. [isKnownToHaveAttribute("append")] returns true on a list node
    and false on a tuple node, on the Python 3 and on the Python 2
    runtime. *)
Theorem C6_append_on_list_not_on_tuple (sr : SourceRef) :
  (isKnownToHaveAttribute cpython3 (node_of cpython3 tshape_list sr) "append"
   = Returns true
   /\ isKnownToHaveAttribute cpython3 (node_of cpython3 tshape_tuple sr)
        "append" = Returns false)
  /\ (isKnownToHaveAttribute cpython2 (node_of cpython2 tshape_list sr)
        "append" = Returns true
      /\ isKnownToHaveAttribute cpython2 (node_of cpython2 tshape_tuple sr)
           "append" = Returns false).
Proof. repeat split; vm_compute; reflexivity. Qed.

(** C7. Where str is not bytes, the str-or-unicode node is the str
    node, and every query answers the same on both. *)
Theorem C7_unified_text_same_answers (rt : Runtime) (sr : SourceRef) :
  str_is_bytes rt = false ->
  let either := node_of rt tshape_str_or_unicode sr in
  let narrow := node_of rt tshape_str sr in
  (forall q, hasShapeExact either q = hasShapeExact narrow q)
  /\ hasShapeTrustedAttributes either = hasShapeTrustedAttributes narrow
  /\ getTypeShape either = getTypeShape narrow
  /\ (forall name,
        isKnownToHaveAttribute rt either name
        = isKnownToHaveAttribute rt narrow name)
  /\ (forall name,
        getKnownAttributeValue rt either name
        = getKnownAttributeValue rt narrow name)
  /\ (forall exception_type name,
        mayRaiseExceptionAttributeLookup rt either exception_type name
        = mayRaiseExceptionAttributeLookup rt narrow exception_type name)
  /\ (forall exception_type,
        mayRaiseExceptionBool either exception_type
        = mayRaiseExceptionBool narrow exception_type)
  /\ mayHaveSideEffectsBool either = mayHaveSideEffectsBool narrow
  /\ isKnownToBeHashable either = isKnownToBeHashable narrow
  /\ extractUnhashableNodeType either = extractUnhashableNodeType narrow.
Proof.
  intros Hunified either narrow.
  assert (E : either = narrow).
  { unfold either, narrow, node_of. simpl.
    unfold ExpressionStrOrUnicodeExactMixin. now rewrite Hunified. }
  rewrite E. repeat split.
Qed.

Lemma C7_witness :
  str_is_bytes cpython3 = false
  /\ getTypeShape (node_of cpython3 tshape_str_or_unicode some_source_ref)
     = getTypeShape (node_of cpython3 tshape_str some_source_ref).
Proof.
  split; [reflexivity|].
  exact (proj1 (proj2 (proj2
    (C7_unified_text_same_answers cpython3 some_source_ref eq_refl)))).
Defined.

(** C8. Where str is bytes, the str-or-unicode node knows an attribute
    exactly when both the empty str and the empty unicode have it, and
    it takes the value from the empty str. *)
Theorem C8_distinct_text_and_of_both_value_of_narrow
  (rt : Runtime) (sr : SourceRef) (name : string) :
  str_is_bytes rt = true ->
  let either := node_of rt tshape_str_or_unicode sr in
  isKnownToHaveAttribute rt either name
  = Returns (hasattr rt (construct ty_str) name
             && hasattr rt (construct ty_unicode) name)
  /\ (isKnownToHaveAttribute rt either name = Returns true
      <-> hasattr rt (construct ty_str) name = true
          /\ hasattr rt (construct ty_unicode) name = true)
  /\ getKnownAttributeValue rt either name
     = getattr rt (construct ty_str) name.
Proof.
  intros Hdistinct either.
  assert (E : isKnownToHaveAttribute rt either name
              = Returns (hasattr rt (construct ty_str) name
                         && hasattr rt (construct ty_unicode) name)).
  { unfold either, isKnownToHaveAttribute, method, node_of. simpl.
    unfold ExpressionStrOrUnicodeExactMixin. rewrite Hdistinct. simpl.
    unfold unicode_literal, str_literal. rewrite Hdistinct.
    f_equal. apply andb_comm. }
  split; [exact E|]. split.
  - rewrite E. split.
    + intros H. injection H as H. now apply andb_true_iff.
    + intros H. apply andb_true_iff in H. now rewrite H.
  - unfold either, getKnownAttributeValue, method, node_of. simpl.
    unfold ExpressionStrOrUnicodeExactMixin. now rewrite Hdistinct.
Qed.

Lemma C8_witness :
  str_is_bytes cpython2 = true
  /\ isKnownToHaveAttribute cpython2
       (node_of cpython2 tshape_str_or_unicode some_source_ref) "isdecimal"
     = Returns false
  /\ isKnownToHaveAttribute cpython2
       (node_of cpython2 tshape_str_or_unicode some_source_ref) "upper"
     = Returns true.
Proof.
  split; [reflexivity|]. split.
  - rewrite (proj1 (C8_distinct_text_and_of_both_value_of_narrow
                      cpython2 some_source_ref "isdecimal" eq_refl)).
    reflexivity.
  - rewrite (proj1 (C8_distinct_text_and_of_both_value_of_narrow
                      cpython2 some_source_ref "upper" eq_refl)).
    reflexivity.
Defined.

(** C9. The node of every shape whose verdict is Never has
    [extractUnhashableNodeType], and it returns the constant node for
    the built-in type of that shape, at the node's source reference;
    neither the tuple mixin nor its base defines the method, so on a
    tuple node the call finds nothing. *)
Theorem C9_never_hashable_extracts_own_type (rt : Runtime) (sr : SourceRef) :
  (forall K,
      hashability_verdict (node_of rt K sr) = Returns Never ->
      exists node,
        extractUnhashableNodeType (node_of rt K sr) = Returns node
        /\ constant node = ValType (shape_type rt K)
        /\ constant_source_ref node = sr)
  /\ resolve extractUnhashableNodeType_in (mro ExpressionTupleShapeExactMixin)
     = None
  /\ extractUnhashableNodeType (node_of rt tshape_tuple sr)
     = Raises AttributeError.
Proof.
  split; [|split; reflexivity].
  intros K H. rewrite hashability_verdict_of_shape in H.
  destruct K; try discriminate H;
    eexists; (split; [reflexivity|split; reflexivity]).
Qed.

Lemma C9_witness :
  hashability_verdict (node_of cpython3 tshape_dict some_source_ref)
  = Returns Never
  /\ exists node,
      extractUnhashableNodeType (node_of cpython3 tshape_dict some_source_ref)
      = Returns node
      /\ constant node = ValType ty_dict
      /\ constant_source_ref node = some_source_ref.
Proof.
  split; [reflexivity|].
  exact (proj1 (C9_never_hashable_extracts_own_type cpython3 some_source_ref)
           tshape_dict eq_refl).
Defined.

(** C10. A str node answers true to exactly [hasShapeStrExact] and
    [hasShapeStrOrUnicodeExact], a unicode node to exactly
    [hasShapeUnicodeExact] and [hasShapeStrOrUnicodeExact]; so a node
    of a shape other than str-or-unicode, of a class other than the
    str-or-unicode mixin, answers true to [hasShapeStrOrUnicodeExact]. *)
Theorem C10_text_nodes_answer_two_queries (rt : Runtime) (sr : SourceRef) :
  (forall q,
      hasShapeExact (node_of rt tshape_str sr) q = Returns true
      <-> q = hasShapeStrExact \/ q = hasShapeStrOrUnicodeExact)
  /\ (forall q,
      hasShapeExact (node_of rt tshape_unicode sr) q = Returns true
      <-> q = hasShapeUnicodeExact \/ q = hasShapeStrOrUnicodeExact)
  /\ exists K,
      K <> tshape_str_or_unicode
      /\ mixin_of_shape rt K <> mixin_of_shape rt tshape_str_or_unicode
      /\ hasShapeExact (node_of rt K sr) hasShapeStrOrUnicodeExact
         = Returns true.
Proof.
  split; [|split].
  - intros q. destruct q; cbv; split; intros H;
      try discriminate H; try reflexivity; auto;
      destruct H as [H|H]; discriminate H.
  - intros q. destruct q; cbv; split; intros H;
      try discriminate H; try reflexivity; auto;
      destruct H as [H|H]; discriminate H.
  - exists tshape_unicode. split; [discriminate|]. split; [|reflexivity].
    simpl. unfold ExpressionStrOrUnicodeExactMixin.
    destruct (str_is_bytes rt); discriminate.
Qed.

(** ** Further properties of the module *)

(** [mayRaiseExceptionAttributeLookup] is the base's definition on
    every node. *)
Lemma mayRaiseExceptionAttributeLookup_eq rt self exception_type name :
  mayRaiseExceptionAttributeLookup rt self exception_type name
  = (b <- isKnownToHaveAttribute rt self name ;; Returns (negb b)).
Proof.
  unfold mayRaiseExceptionAttributeLookup.
  rewrite (method_base_only (mayRaiseExceptionAttributeLookup_in rt)
             (fun self exception_type attribute_name =>
                b <- isKnownToHaveAttribute rt self attribute_name ;;
                Returns (negb b))).
  - reflexivity.
  - reflexivity.
  - intros c Hc; destruct c; try reflexivity; now elim Hc.
Qed.

(** On every node, of whatever class, a known attribute has a value. *)
Lemma known_attribute_has_value rt self name :
  isKnownToHaveAttribute rt self name = Returns true ->
  exists v, getKnownAttributeValue rt self name = Returns v.
Proof.
  destruct self as [c sr].
  unfold isKnownToHaveAttribute, getKnownAttributeValue, method, getattr.
  destruct c; simpl; unfold getattr; intros H;
    try (eexists; reflexivity);
    injection H as H;
    try (rewrite H; eexists; reflexivity).
  apply andb_true_iff in H. destruct H as [_ H].
  rewrite H. eexists; reflexivity.
Qed.

Lemma unknown_attribute_raises rt self name :
  probes_one_instance (node_class self) = true ->
  isKnownToHaveAttribute rt self name = Returns false ->
  getKnownAttributeValue rt self name = Raises AttributeError.
Proof.
  destruct self as [c sr].
  unfold isKnownToHaveAttribute, getKnownAttributeValue, method, getattr.
  destruct c; simpl; unfold getattr; intros Hc H; try discriminate Hc;
    injection H as H; now rewrite H.
Qed.

(** X1. [hasShapeTrustedAttributes] returns true on every node: the
    base defines it and no class overrides it. *)
Theorem X1_attributes_always_trusted (self : Node) :
  hasShapeTrustedAttributes self = Returns true.
Proof.
  unfold hasShapeTrustedAttributes.
  apply method_base_only; [reflexivity|].
  intros c Hc; destruct c; try reflexivity; now elim Hc.
Qed.

(** X2. [getTypeShape] on the node of a shape gives that shape back,
    except for the str-or-unicode shape where str is not bytes, whose
    node reports the str shape. *)
Theorem X2_getTypeShape_of_shape_node
  (rt : Runtime) (K : TypeShape) (sr : SourceRef) :
  (str_is_bytes rt = true \/ K <> tshape_str_or_unicode ->
   getTypeShape (node_of rt K sr) = Returns K)
  /\ (str_is_bytes rt = false ->
      getTypeShape (node_of rt tshape_str_or_unicode sr) = Returns tshape_str).
Proof.
  split.
  - intros [H|H].
    + destruct K; try reflexivity.
      unfold getTypeShape, method, node_of. simpl.
      unfold ExpressionStrOrUnicodeExactMixin. now rewrite H.
    + destruct K; try reflexivity. now elim H.
  - intros H. unfold getTypeShape, method, node_of. simpl.
    unfold ExpressionStrOrUnicodeExactMixin. now rewrite H.
Qed.

Lemma X2_witness :
  getTypeShape (node_of cpython2 tshape_str_or_unicode some_source_ref)
  = Returns tshape_str_or_unicode
  /\ getTypeShape (node_of cpython3 tshape_str_or_unicode some_source_ref)
     = Returns tshape_str.
Proof.
  split.
  - apply (proj1 (X2_getTypeShape_of_shape_node
                    cpython2 tshape_str_or_unicode some_source_ref)).
    left. reflexivity.
  - apply (proj2 (X2_getTypeShape_of_shape_node
                    cpython3 tshape_str_or_unicode some_source_ref)).
    reflexivity.
Defined.

(** X4. Which shapes keep the rule "true to the own exact-shape query
    and to no other": dict, list, set, bool, bytes and bytearray do, on
    every runtime; str-or-unicode does exactly where str is bytes;
    frozenset, tuple, str and unicode never do. *)
Theorem X4_shapes_that_keep_the_exact_rule (rt : Runtime) (K : TypeShape) :
  exact_shape_invariant rt K
  <-> match K with
      | tshape_frozenset | tshape_tuple | tshape_str | tshape_unicode => False
      | tshape_str_or_unicode => str_is_bytes rt = true
      | _ => True
      end.
Proof.
  destruct K; split; intros H; try exact I; try contradiction;
    try (apply exact_shape_invariant_others; [reflexivity|discriminate ..]).
  - assert (E : hasShapeFrozesetExact = exact_query tshape_frozenset)
      by reflexivity.
    apply (H some_source_ref) in E. discriminate E.
  - assert (E : hasShapeExact (node_of rt tshape_str some_source_ref)
                  hasShapeStrOrUnicodeExact = Returns true) by reflexivity.
    apply (H some_source_ref) in E. discriminate E.
  - destruct (str_is_bytes rt) eqn:Hrt; [reflexivity|].
    assert (E : hasShapeExact (node_of rt tshape_str_or_unicode some_source_ref)
                  hasShapeStrExact = Returns true).
    { unfold hasShapeExact, method, node_of. simpl.
      unfold ExpressionStrOrUnicodeExactMixin. now rewrite Hrt. }
    apply (H some_source_ref) in E. discriminate E.
  - intros sr q. unfold hasShapeExact, method, node_of. simpl.
    unfold ExpressionStrOrUnicodeExactMixin. rewrite H.
    destruct q; cbv; split; intros E; try reflexivity; discriminate E.
  - assert (E : hasShapeTupleExact = exact_query tshape_tuple)
      by reflexivity.
    apply (H some_source_ref) in E. discriminate E.
  - assert (E : hasShapeExact (node_of rt tshape_unicode some_source_ref)
                  hasShapeStrOrUnicodeExact = Returns true) by reflexivity.
    apply (H some_source_ref) in E. discriminate E.
Qed.

(** X5. How many exact-shape queries a node answers with true: none
    for a node of the base class, two for a str and for a unicode node,
    one for a node of any other class; [true_queries] lists them. *)
Theorem X5_number_of_true_exact_answers (self : Node) :
  (forall q, In q (true_queries self) <-> hasShapeExact self q = Returns true)
  /\ List.length (true_queries self)
     = match node_class self with
       | ExpressionSpecificExactMixinBase => 0
       | ExpressionStrExactMixin | ExpressionUnicodeShapeExactMixin => 2
       | _ => 1
       end.
Proof.
  destruct self as [c sr]. split.
  - intros q. unfold true_queries. rewrite filter_In. unfold answers_true.
    split.
    + intros [_ H]. destruct (hasShapeExact _ q) as [b|e];
        [now subst b | discriminate H].
    + intros H. rewrite H. split; [|reflexivity].
      destruct q; simpl; auto 12.
  - destruct c; reflexivity.
Qed.

(** X6. On every node a known attribute has a value: when
    [isKnownToHaveAttribute] returns true, [getKnownAttributeValue]
    returns.  On a node of a class that probes a single instance, an
    attribute not known has none: [getKnownAttributeValue] raises
    AttributeError. *)
Theorem X6_value_available_iff_known
  (rt : Runtime) (self : Node) (name : string) :
  (isKnownToHaveAttribute rt self name = Returns true ->
   exists v, getKnownAttributeValue rt self name = Returns v)
  /\ (probes_one_instance (node_class self) = true ->
      isKnownToHaveAttribute rt self name = Returns false ->
      getKnownAttributeValue rt self name = Raises AttributeError).
Proof.
  split.
  - apply known_attribute_has_value.
  - apply unknown_attribute_raises.
Qed.

Lemma X6_witness :
  (exists v,
      getKnownAttributeValue cpython3
        (node_of cpython3 tshape_set some_source_ref) "add" = Returns v)
  /\ getKnownAttributeValue cpython3
       (node_of cpython3 tshape_frozenset some_source_ref) "add"
     = Raises AttributeError.
Proof.
  split.
  - apply (proj1 (X6_value_available_iff_known cpython3
                    (node_of cpython3 tshape_set some_source_ref) "add")).
    reflexivity.
  - apply (proj2 (X6_value_available_iff_known cpython3
                    (node_of cpython3 tshape_frozenset some_source_ref) "add"));
      reflexivity.
Defined.

(** X7. The answer of [mayRaiseExceptionAttributeLookup] can be relied
    on: where it is false, [getKnownAttributeValue] returns a value;
    where it is true on a node of a class that probes a single
    instance, [getKnownAttributeValue] raises AttributeError. *)
Theorem X7_may_raise_predicts_value_fetch
  (rt : Runtime) (self : Node) (exception_type : ExceptionType)
  (name : string) :
  (mayRaiseExceptionAttributeLookup rt self exception_type name
   = Returns false ->
   exists v, getKnownAttributeValue rt self name = Returns v)
  /\ (probes_one_instance (node_class self) = true ->
      mayRaiseExceptionAttributeLookup rt self exception_type name
      = Returns true ->
      getKnownAttributeValue rt self name = Raises AttributeError).
Proof.
  rewrite mayRaiseExceptionAttributeLookup_eq.
  destruct (isKnownToHaveAttribute_returns rt self name) as [b Hb].
  rewrite Hb. simpl. split.
  - intros H. apply known_attribute_has_value. rewrite Hb.
    destruct b; [reflexivity | discriminate H].
  - intros Hc H. apply unknown_attribute_raises; [exact Hc|]. rewrite Hb.
    destruct b; [discriminate H | reflexivity].
Qed.

Lemma X7_witness :
  (exists v,
      getKnownAttributeValue cpython2
        (node_of cpython2 tshape_dict some_source_ref) "has_key" = Returns v)
  /\ getKnownAttributeValue cpython3
       (node_of cpython3 tshape_dict some_source_ref) "has_key"
     = Raises AttributeError.
Proof.
  split.
  - apply (proj1 (X7_may_raise_predicts_value_fetch cpython2
                    (node_of cpython2 tshape_dict some_source_ref)
                    AttributeError "has_key")).
    reflexivity.
  - apply (proj2 (X7_may_raise_predicts_value_fetch cpython3
                    (node_of cpython3 tshape_dict some_source_ref)
                    AttributeError "has_key")); reflexivity.
Defined.

(** X8. On a node of any class, [extractUnhashableNodeType] returns a
    node exactly when [isKnownToBeHashable] returns [False]; for every
    other answer, and on a node of the base class, which has neither,
    the call raises AttributeError. *)
Theorem X8_extract_exactly_when_never_hashable (self : Node) :
  ((exists node, extractUnhashableNodeType self = Returns node)
   <-> isKnownToBeHashable self = Returns (Some false))
  /\ (isKnownToBeHashable self <> Returns (Some false) ->
      extractUnhashableNodeType self = Raises AttributeError).
Proof.
  destruct self as [c sr]. split; [split|].
  - intros [node H]; destruct c; try discriminate H; reflexivity.
  - intros H; destruct c; try discriminate H; eexists; reflexivity.
  - intros H; destruct c; try reflexivity; now elim H.
Qed.

Lemma X8_witness :
  extractUnhashableNodeType (node_of cpython3 tshape_frozenset some_source_ref)
  = Raises AttributeError.
Proof.
  apply (proj2 (X8_extract_exactly_when_never_hashable
                  (node_of cpython3 tshape_frozenset some_source_ref))).
  discriminate.
Defined.

(** X9. On every runtime, an attribute the str-or-unicode node knows
    is known to the str node and to the unicode node as well, and the
    value the str-or-unicode node gives is the one the str node
    gives. *)
Theorem X9_str_or_unicode_knows_what_both_know
  (rt : Runtime) (sr : SourceRef) (name : string) :
  isKnownToHaveAttribute rt (node_of rt tshape_str_or_unicode sr) name
  = Returns true ->
  isKnownToHaveAttribute rt (node_of rt tshape_str sr) name = Returns true
  /\ isKnownToHaveAttribute rt (node_of rt tshape_unicode sr) name
     = Returns true
  /\ getKnownAttributeValue rt (node_of rt tshape_str_or_unicode sr) name
     = getKnownAttributeValue rt (node_of rt tshape_str sr) name.
Proof.
  unfold isKnownToHaveAttribute, getKnownAttributeValue, method, node_of.
  simpl. unfold ExpressionStrOrUnicodeExactMixin.
  destruct (str_is_bytes rt) eqn:Hrt; simpl; intros H; injection H as H.
  - apply andb_true_iff in H. destruct H as [Hwide Hnarrow].
    rewrite Hwide, Hnarrow. repeat split.
  - unfold unicode_literal, str_literal in *. rewrite Hrt, H. repeat split.
Qed.

Lemma X9_witness :
  isKnownToHaveAttribute cpython2
    (node_of cpython2 tshape_unicode some_source_ref) "join" = Returns true
  /\ getKnownAttributeValue cpython2
       (node_of cpython2 tshape_str_or_unicode some_source_ref) "join"
     = getKnownAttributeValue cpython2
         (node_of cpython2 tshape_str some_source_ref) "join".
Proof.
  exact (proj2 (X9_str_or_unicode_knows_what_both_know
                  cpython2 some_source_ref "join" eq_refl)).
Defined.

(** X10. The literals decide which nodes agree on attributes: where
    str is not bytes, the unicode node probes the same empty str as the
    str node, so both know the same attributes with the same values;
    where str is bytes, the same holds of the bytes node and the str
    node. *)
Theorem X10_same_literal_same_attributes
  (rt : Runtime) (sr : SourceRef) (name : string) :
  (str_is_bytes rt = false ->
   isKnownToHaveAttribute rt (node_of rt tshape_unicode sr) name
   = isKnownToHaveAttribute rt (node_of rt tshape_str sr) name
   /\ getKnownAttributeValue rt (node_of rt tshape_unicode sr) name
      = getKnownAttributeValue rt (node_of rt tshape_str sr) name)
  /\ (str_is_bytes rt = true ->
      isKnownToHaveAttribute rt (node_of rt tshape_bytes sr) name
      = isKnownToHaveAttribute rt (node_of rt tshape_str sr) name
      /\ getKnownAttributeValue rt (node_of rt tshape_bytes sr) name
         = getKnownAttributeValue rt (node_of rt tshape_str sr) name).
Proof.
  unfold isKnownToHaveAttribute, getKnownAttributeValue, method, node_of.
  simpl. unfold unicode_literal, bytes_literal, str_literal.
  split.
  - intros Hrt. rewrite Hrt. split; reflexivity.
  - intros Hrt. rewrite Hrt. split; reflexivity.
Qed.

Lemma X10_witness :
  isKnownToHaveAttribute cpython3
    (node_of cpython3 tshape_unicode some_source_ref) "casefold"
  = isKnownToHaveAttribute cpython3
      (node_of cpython3 tshape_str some_source_ref) "casefold"
  /\ isKnownToHaveAttribute cpython2
       (node_of cpython2 tshape_bytes some_source_ref) "decode"
     = isKnownToHaveAttribute cpython2
         (node_of cpython2 tshape_str some_source_ref) "decode".
Proof.
  split.
  - exact (proj1 (proj1 (X10_same_literal_same_attributes
                           cpython3 some_source_ref "casefold") eq_refl)).
  - exact (proj1 (proj2 (X10_same_literal_same_attributes
                           cpython2 some_source_ref "decode") eq_refl)).
Defined.

(** X11. A name that no built-in type has among its members is known
    to the node of no shape: [isKnownToHaveAttribute] returns false,
    [mayRaiseExceptionAttributeLookup] returns true for every exception
    type, and [getKnownAttributeValue] raises AttributeError. *)
Theorem X11_name_of_no_type_is_unknown
  (rt : Runtime) (K : TypeShape) (sr : SourceRef)
  (exception_type : ExceptionType) (name : string) :
  (forall t, mem_string name (members rt t) = false) ->
  isKnownToHaveAttribute rt (node_of rt K sr) name = Returns false
  /\ mayRaiseExceptionAttributeLookup rt (node_of rt K sr) exception_type name
     = Returns true
  /\ getKnownAttributeValue rt (node_of rt K sr) name = Raises AttributeError.
Proof.
  intros Hnone.
  assert (Hno : forall o, hasattr rt o name = false)
    by (intros o; apply Hnone).
  assert (Hknown : isKnownToHaveAttribute rt (node_of rt K sr) name
                   = Returns false).
  { unfold isKnownToHaveAttribute, method, node_of.
    destruct K; simpl; try now rewrite Hno.
    unfold ExpressionStrOrUnicodeExactMixin.
    destruct (str_is_bytes rt); simpl; now rewrite !Hno. }
  split; [exact Hknown|]. split.
  - rewrite mayRaiseExceptionAttributeLookup_eq, Hknown. reflexivity.
  - rewrite getKnownAttributeValue_probes_zero_value.
    unfold getattr. now rewrite Hno.
Qed.

Lemma X11_witness :
  isKnownToHaveAttribute cpython3
    (node_of cpython3 tshape_bool some_source_ref) "nonexistent_xyz"
  = Returns false
  /\ mayRaiseExceptionAttributeLookup cpython3
       (node_of cpython3 tshape_bool some_source_ref) AttributeError
       "nonexistent_xyz" = Returns true
  /\ getKnownAttributeValue cpython3
       (node_of cpython3 tshape_bool some_source_ref) "nonexistent_xyz"
     = Raises AttributeError.
Proof.
  apply X11_name_of_no_type_is_unknown.
  intros t; destruct t; reflexivity.
Defined.
